(** * WebCrawl plugin: request construction and result wrapping

    A shallow embedding of [src/plugin.py]: the two tools [WebSearchTool]
    and [UrlCrawlTool], the configuration they read, the headers and body
    they build, the single POST they issue and the dictionary they hand
    back to the host.

    Python strings are kept as their UTF-8 bytes ([string]); Python integers
    are [Z]; the header dictionary is a [gmap string string]; dictionaries
    that are serialised or returned keep their insertion order and are
    association lists. *)

From Stdlib Require Import ZArith Ascii DecimalString DecimalPos DecimalZ.
From stdpp Require Import gmap strings list fin_maps.

Local Open Scope Z_scope.

(** ** Python values *)

(** The values that travel through [function_args], the request body and
    the tool result. *)
#[local] Set Warnings "-register-all".
Inductive pyval :=
  | PyNone
  | PyBool (b : bool)
  | PyInt (n : Z)
  | PyStr (s : string)
  | PyList (items : list pyval)
  | PyDict (kvs : list (string * pyval)).

(** [d.get(k)] on an insertion-ordered dictionary. *)
Fixpoint dict_lookup (k : string) (d : list (string * pyval)) : option pyval :=
  match d with
  | [] => None
  | (k', v) :: d' => if decide (k = k') then Some v else dict_lookup k d'
  end.

(** [d.get(k)]: the value, or [None] when the key is missing. *)
Definition dict_get (k : string) (d : list (string * pyval)) : pyval :=
  default PyNone (dict_lookup k d).

(** [d[k] = v]: overwrite in place, or append a new key at the end. *)
Fixpoint dict_set (k : string) (v : pyval) (d : list (string * pyval))
  : list (string * pyval) :=
  match d with
  | [] => [(k, v)]
  | (k', v') :: d' =>
      if decide (k = k') then (k, v) :: d' else (k', v') :: dict_set k v d'
  end.

(** [str(n)] for an integer: its decimal digits, with a leading minus sign
    for a negative one. *)
Definition str_int (n : Z) : string := NilZero.string_of_int (Z.to_int n).

(** Reading a decimal string back. *)
Definition parse_int (s : string) : option Z :=
  Z.of_int <$> NilZero.int_of_string s.

(** [sep.join(items)]. *)
Definition join (sep : string) (items : list string) : string :=
  String.concat sep items.

(** [if c: h[k] = v], as a step of a chain of updates. *)
Definition when {A : Type} (c : bool) (update : A → A) (h : A) : A :=
  if c then update h else h.

(** ** Configuration *)

(** The sections of [config_schema] that the tools read, with the types the
    schema declares. *)
Module ProviderCfg.
Record t := mk { jina_api_key : string }.
End ProviderCfg.

Module SearchCfg.
Record t := mk {
  search_nation : string;
  search_language : string;
  crawl_details : bool;
  timeout : Z;
  engine_mode : string;
  remove_pictures : bool;
  move_links_to_end : bool;
  move_pics_to_end : bool;
  add_pic_alt : bool
}.
End SearchCfg.

Module ExtractCfg.
Record t := mk {
  timeout : Z;
  follow_redirect : bool;
  use_custom_prehandler_scripts : bool;
  custom_prehandler_scripts_list : list string;
  include_shadow_dom : bool;
  include_iframes : bool;
  remove_pictures : bool;
  use_readerlm_v2 : bool;
  move_links_to_end : bool;
  move_pics_to_end : bool;
  add_pic_alt : bool;
  optimize_for_gpt_oss : bool;
  engine_mode : string
}.
End ExtractCfg.

Module Config.
Record t := mk {
  provider : ProviderCfg.t;
  search : SearchCfg.t;
  extract : ExtractCfg.t
}.
End Config.

(** The defaults of [config_schema]. *)
Definition default_config : Config.t := {|
  Config.provider := {| ProviderCfg.jina_api_key := "" |};
  Config.search := {|
    SearchCfg.search_nation := "CN";
    SearchCfg.search_language := "zh-cn";
    SearchCfg.crawl_details := false;
    SearchCfg.timeout := 10;
    SearchCfg.engine_mode := "default";
    SearchCfg.remove_pictures := true;
    SearchCfg.move_links_to_end := true;
    SearchCfg.move_pics_to_end := true;
    SearchCfg.add_pic_alt := true |};
  Config.extract := {|
    ExtractCfg.timeout := 10;
    ExtractCfg.follow_redirect := true;
    ExtractCfg.use_custom_prehandler_scripts := false;
    ExtractCfg.custom_prehandler_scripts_list := [];
    ExtractCfg.include_shadow_dom := false;
    ExtractCfg.include_iframes := false;
    ExtractCfg.remove_pictures := true;
    ExtractCfg.use_readerlm_v2 := false;
    ExtractCfg.move_links_to_end := true;
    ExtractCfg.move_pics_to_end := true;
    ExtractCfg.add_pic_alt := true;
    ExtractCfg.optimize_for_gpt_oss := false;
    ExtractCfg.engine_mode := "default" |}
|}.

(** ** The HTTP exchange *)

Record request := mk_request {
  endpoint : string;
  headers : gmap string string;
  data : string
}.

Record response := mk_response {
  status : Z;
  text : string
}.

(** An exception of a class derived from [Exception], the kind that
    [except Exception] catches, with the text [str(e)] gives. *)
Inductive exn := Exception (msg : string).

Definition str_exn (e : exn) : string :=
  match e with Exception msg => msg end.

(** What a POST comes back with: a response, or an exception raised by the
    client (connection refused, DNS failure, ...). *)
Inductive outcome :=
  | Responds (r : response)
  | Fails (e : exn).

(** The library calls the tools make: [json.dumps] and the POST of an
    [aiohttp] session. *)
Class Externals := {
  json_dumps : pyval → string;
  post : request → outcome
}.

(** ** Computations that may raise and that record the requests posted *)

(** How a call ends: with a value, or with an exception on its way up. *)
Inductive result (A : Type) :=
  | Return (a : A)
  | Raise (e : exn).
Arguments Return {A} a.
Arguments Raise {A} e.

(** A computation runs from the list of the requests handed to the HTTP
    client so far, and gives its result together with the extended list. *)
Definition io (A : Type) : Type := list request → result A * list request.

#[global] Instance io_ret : MRet io := λ A a posted, (Return a, posted).

#[global] Instance io_bind : MBind io := λ A B k m posted,
  match m posted with
  | (Return a, posted') => k a posted'
  | (Raise e, posted') => (Raise e, posted')
  end.

Definition raise {A : Type} (e : exn) : io A := λ posted, (Raise e, posted).

(** [try: body / except Exception as e: handler e]. *)
Definition try_except {A : Type} (body : io A) (handler : exn → io A) : io A :=
  λ posted,
    match body posted with
    | (Return a, posted') => (Return a, posted')
    | (Raise e, posted') => handler e posted'
    end.

(** [async with session.post(...) as response]: the request is handed to the
    client and recorded; the client either yields the response or raises. *)
Definition session_post `{Externals} (r : request) : io response :=
  λ posted,
    match post r with
    | Responds resp => (Return resp, posted ++ [r])
    | Fails e => (Raise e, posted ++ [r])
    end.

(** ** What the plugin takes from the host *)

(** The names imported from [src.plugin_system] that the plugin uses in its
    declarations: the enumeration of parameter types, of which it uses
    [STRING], and the type of the descriptions [get_tool_info] builds. *)
Class PluginSystem := {
  ToolParamType : Type;
  STRING : ToolParamType;
  ComponentInfo : Type
}.

(** One entry of a tool's [parameters]: name, type, description, whether it
    is required, and the allowed values if they are enumerated. *)
Definition tool_param `{PluginSystem} : Type :=
  (string * ToolParamType * string * bool * option (list string))%type.

(** The double quote character, as a string. *)
Definition dquote : string := String "034"%char EmptyString.

(** ** WebSearchTool *)

Module WebSearchTool.

Definition name : string := "search_web".

Definition description : string := "使用工具 从网络上搜索某关键字的相关网页".

Definition parameters `{PluginSystem} : list tool_param :=
  [("keywords",
    STRING,
    "搜索关键字，支持多个关键字用空格分隔，若关键字必须包含则用双引号"
      +:+ dquote +:+ dquote
      +:+ "包裹，若关键字必须排除则在关键字前加' -'(英文空格减号)",
    true,
    None)].

Definition available_for_llm : bool := true.

Definition endpoint : string := "https://s.jina.ai/".

(** The [headers] dictionary as [search] leaves it before the POST. *)
Definition headers (cfg : Config.t) : gmap string string :=
  let s := Config.search cfg in
  let headers : gmap string string :=
    <["Content-Type" := "application/json"]>
      {["Authorization" :=
          "Bearer " +:+ ProviderCfg.jina_api_key (Config.provider cfg)]} in
  if SearchCfg.crawl_details s then
    let headers :=
      if decide (SearchCfg.engine_mode s = "fast")
      then <["X-Engine" := "direct"]> headers
      else if decide (SearchCfg.engine_mode s = "quality")
      then <["X-Engine" := "browser"]> headers
      else headers in
    let headers :=
      when (bool_decide (SearchCfg.timeout s > 0))
        <["X-Timeout" := str_int (SearchCfg.timeout s)]> headers in
    let headers :=
      when (SearchCfg.remove_pictures s)
        <["X-Retain-Images" := "none"]> headers in
    let headers :=
      when (SearchCfg.move_links_to_end s)
        <["X-With-Links-Summary" := "true"]> headers in
    let headers :=
      when (SearchCfg.move_pics_to_end s)
        <["X-With-Images-Summary" := "true"]> headers in
    let headers :=
      when (SearchCfg.add_pic_alt s)
        <["X-With-Generated-Alt" := "true"]> headers in
    headers
  else
    <["X-Respond-With" := "no-content"]> headers.

(** The [body] dictionary as [search] leaves it before the POST. *)
Definition body (cfg : Config.t) (kw : pyval) : list (string * pyval) :=
  let s := Config.search cfg in
  let body := [("q", kw)] in
  let body :=
    when (bool_decide (SearchCfg.search_nation s ≠ "not-specified"))
      (dict_set "gl" (PyStr (SearchCfg.search_nation s))) body in
  let body :=
    when (bool_decide (SearchCfg.search_language s ≠ "not-specified"))
      (dict_set "hl" (PyStr (SearchCfg.search_language s))) body in
  body.

(** The request [search] posts. *)
Definition request `{Externals} (cfg : Config.t) (kw : pyval) : request :=
  mk_request endpoint (headers cfg) (json_dumps (PyDict (body cfg kw))).

Definition search `{Externals} (cfg : Config.t) (kw : pyval) : io string :=
  response ← session_post (request cfg kw);
  if bool_decide (status response = 200) then
    mret (text response)
  else
    raise (Exception ("搜索请求失败，状态码: " +:+ str_int (status response))).

Definition execute `{Externals} (cfg : Config.t)
    (function_args : list (string * pyval)) : io pyval :=
  let keywords := dict_get "keywords" function_args in
  try_except
    (search_results ← search cfg keywords;
     mret (PyDict [("name", PyStr name); ("content", PyStr search_results)]))
    (λ e,
     mret (PyDict [("name", PyStr name);
                     ("content", PyStr ("搜索失败: " +:+ str_exn e))])).

End WebSearchTool.

(** ** UrlCrawlTool *)

Module UrlCrawlTool.

Definition name : string := "crawl_url".

Definition description : string := "使用工具 从指定URL提取网页内容".

Definition parameters `{PluginSystem} : list tool_param :=
  [("url",
    STRING,
    "要提取内容的网页URL，必须以http://或https://开头",
    true,
    None)].

Definition available_for_llm : bool := true.

Definition endpoint : string := "https://r.jina.ai/".

(** The [headers] dictionary as [crawl] leaves it before the POST. *)
Definition headers (cfg : Config.t) : gmap string string :=
let e := Config.extract cfg in
let headers : gmap string string :=
  <["Content-Type" := "application/json"]>
    {["Authorization" :=
        "Bearer " +:+ ProviderCfg.jina_api_key (Config.provider cfg)]} in
let headers :=
  if decide (ExtractCfg.engine_mode e = "fast")
  then <["X-Engine" := "direct"]> headers
  else if decide (ExtractCfg.engine_mode e = "quality")
  then <["X-Engine" := "browser"]> headers
  else headers in
let headers :=
  when (bool_decide (ExtractCfg.timeout e > 0))
    <["X-Timeout" := str_int (ExtractCfg.timeout e)]> headers in
let headers :=
  when (ExtractCfg.follow_redirect e)
    <["X-Follow-Redirects" := "true"]> headers in
let headers :=
  when (ExtractCfg.use_custom_prehandler_scripts e)
    (λ headers,
       let headers := <["X-Use-Custom-Prehandler-Scripts" := "true"]> headers in
       when (bool_decide (ExtractCfg.custom_prehandler_scripts_list e ≠ []))
         <["X-Custom-Prehandler-Scripts-List" :=
             join "," (ExtractCfg.custom_prehandler_scripts_list e)]> headers)
    headers in
let headers :=
  when (ExtractCfg.include_shadow_dom e)
    <["X-Include-Shadow-DOM" := "true"]> headers in
let headers :=
  when (ExtractCfg.include_iframes e)
    <["X-Include-Iframes" := "true"]> headers in
let headers :=
  when (ExtractCfg.remove_pictures e)
    <["X-Retain-Images" := "none"]> headers in
let headers :=
  when (ExtractCfg.use_readerlm_v2 e)
    <["X-Use-ReaderLM-V2" := "true"]> headers in
let headers :=
  when (ExtractCfg.move_links_to_end e)
    <["X-With-Links-Summary" := "true"]> headers in
let headers :=
  when (ExtractCfg.move_pics_to_end e)
    <["X-With-Images-Summary" := "true"]> headers in
let headers :=
  when (ExtractCfg.add_pic_alt e)
    <["X-With-Generated-Alt" := "true"]> headers in
let headers :=
  when (ExtractCfg.optimize_for_gpt_oss e)
    <["X-Optimize-For-GPT-OSS" := "true"]> headers in
headers.

Definition body (url : pyval) : list (string * pyval) := [("url", url)].

(** The request [crawl] posts. *)
Definition request `{Externals} (cfg : Config.t) (url : pyval) : request :=
mk_request endpoint (headers cfg) (json_dumps (PyDict (body url))).

Definition crawl `{Externals} (cfg : Config.t) (url : pyval) : io string :=
response ← session_post (request cfg url);
if bool_decide (status response = 200) then
  mret (text response)
else
  raise (Exception ("内容提取请求失败，状态码: " +:+ str_int (status response))).

Definition execute `{Externals} (cfg : Config.t)
  (function_args : list (string * pyval)) : io pyval :=
let url := dict_get "url" function_args in
try_except
  (crawl_result ← crawl cfg url;
   mret (PyDict [("name", PyStr name); ("content", PyStr crawl_result)]))
  (λ e,
   mret (PyDict [("name", PyStr name);
                 ("content", PyStr ("内容提取失败: " +:+ str_exn e))])).

End UrlCrawlTool.

(** ** WebCrawlPlugin *)

(** A tool class as the host sees it: the class attributes and [execute]. *)
Module BaseTool.
Record t `{PluginSystem} := mk {
  name : string;
  description : string;
  parameters : list tool_param;
  available_for_llm : bool;
  execute : Config.t → list (string * pyval) → io pyval
}.
End BaseTool.

Definition WebSearchTool_class `{PluginSystem} `{Externals} : BaseTool.t := {|
  BaseTool.name := WebSearchTool.name;
  BaseTool.description := WebSearchTool.description;
  BaseTool.parameters := WebSearchTool.parameters;
  BaseTool.available_for_llm := WebSearchTool.available_for_llm;
  BaseTool.execute := WebSearchTool.execute
|}.

Definition UrlCrawlTool_class `{PluginSystem} `{Externals} : BaseTool.t := {|
  BaseTool.name := UrlCrawlTool.name;
  BaseTool.description := UrlCrawlTool.description;
  BaseTool.parameters := UrlCrawlTool.parameters;
  BaseTool.available_for_llm := UrlCrawlTool.available_for_llm;
  BaseTool.execute := UrlCrawlTool.execute
|}.

Module WebCrawlPlugin.

Definition plugin_name : string := "cky-web-crawl".

(** [get_tool_info] is the host's class method; it is taken as given. *)
Definition get_plugin_components `{PluginSystem} `{Externals}
    (get_tool_info : BaseTool.t → ComponentInfo)
  : list (ComponentInfo * BaseTool.t) :=
  [(get_tool_info WebSearchTool_class, WebSearchTool_class);
   (get_tool_info UrlCrawlTool_class, UrlCrawlTool_class)].

End WebCrawlPlugin.

(** ** The boolean switches and their headers *)

(** The switches of the [search] and [extract] sections that stand for one
    header each, with the header and the fixed value it is given. *)
Module Toggle.

Inductive t :=
  | remove_pictures
  | move_links_to_end
  | move_pics_to_end
  | add_pic_alt
  | follow_redirect
  | use_custom_prehandler_scripts
  | include_shadow_dom
  | include_iframes
  | use_readerlm_v2
  | optimize_for_gpt_oss.

Definition header (x : t) : string :=
  match x with
  | remove_pictures => "X-Retain-Images"
  | move_links_to_end => "X-With-Links-Summary"
  | move_pics_to_end => "X-With-Images-Summary"
  | add_pic_alt => "X-With-Generated-Alt"
  | follow_redirect => "X-Follow-Redirects"
  | use_custom_prehandler_scripts => "X-Use-Custom-Prehandler-Scripts"
  | include_shadow_dom => "X-Include-Shadow-DOM"
  | include_iframes => "X-Include-Iframes"
  | use_readerlm_v2 => "X-Use-ReaderLM-V2"
  | optimize_for_gpt_oss => "X-Optimize-For-GPT-OSS"
  end.

Definition value (x : t) : string :=
  match x with
  | remove_pictures => "none"
  | _ => "true"
  end.

(** The switch as the [extract] section holds it. *)
Definition of_extract (e : ExtractCfg.t) (x : t) : bool :=
  match x with
  | remove_pictures => ExtractCfg.remove_pictures e
  | move_links_to_end => ExtractCfg.move_links_to_end e
  | move_pics_to_end => ExtractCfg.move_pics_to_end e
  | add_pic_alt => ExtractCfg.add_pic_alt e
  | follow_redirect => ExtractCfg.follow_redirect e
  | use_custom_prehandler_scripts => ExtractCfg.use_custom_prehandler_scripts e
  | include_shadow_dom => ExtractCfg.include_shadow_dom e
  | include_iframes => ExtractCfg.include_iframes e
  | use_readerlm_v2 => ExtractCfg.use_readerlm_v2 e
  | optimize_for_gpt_oss => ExtractCfg.optimize_for_gpt_oss e
  end.

(** The switch as the [search] section holds it; the section has four of
    them. *)
Definition of_search (s : SearchCfg.t) (x : t) : option bool :=
  match x with
  | remove_pictures => Some (SearchCfg.remove_pictures s)
  | move_links_to_end => Some (SearchCfg.move_links_to_end s)
  | move_pics_to_end => Some (SearchCfg.move_pics_to_end s)
  | add_pic_alt => Some (SearchCfg.add_pic_alt s)
  | _ => None
  end.

End Toggle.

(** The headers that only a search with [crawl_details] sends. *)
Definition detail_headers : list string :=
  ["X-Engine"; "X-Timeout"; "X-Retain-Images"; "X-With-Links-Summary";
   "X-With-Images-Summary"; "X-With-Generated-Alt"].

(** Those of [names] that [headers] holds, each with its value. *)
Definition present (names : list string) (headers : gmap string string)
  : list (string * string) :=
  omap (λ k, (k,.) <$> headers !! k) names.

(** Every header name a search can send. *)
Definition search_header_names : list string :=
  ["Authorization"; "Content-Type"; "X-Respond-With"] ++ detail_headers.

(** Every header name an extraction can send. *)
Definition crawl_header_names : list string :=
  ["Authorization"; "Content-Type"; "X-Follow-Redirects";
   "X-Use-Custom-Prehandler-Scripts"; "X-Custom-Prehandler-Scripts-List";
   "X-Include-Shadow-DOM"; "X-Include-Iframes"; "X-Use-ReaderLM-V2";
   "X-Optimize-For-GPT-OSS"] ++ detail_headers.

(** ** Reading a comma-separated header back *)

Fixpoint has_comma (s : string) : bool :=
  match s with
  | EmptyString => false
  | String c s' => bool_decide (c = ","%char) || has_comma s'
  end.

(** The pieces of [s] between its commas; the inverse reading of
    [",".join]. *)
Fixpoint split_commas (s : string) : list string :=
  match s with
  | EmptyString => [EmptyString]
  | String c s' =>
      if bool_decide (c = ","%char) then EmptyString :: split_commas s'
      else
        match split_commas s' with
        | [] => [String c EmptyString]
        | piece :: pieces => String c piece :: pieces
        end
  end.

(** ** A sample environment *)

(** A JSON string literal; only the quote and the backslash are escaped. *)
Fixpoint json_escape (s : string) : string :=
  match s with
  | EmptyString => EmptyString
  | String c s' =>
      if decide (c = "034"%char ∨ c = "092"%char)
      then String "092"%char (String c (json_escape s'))
      else String c (json_escape s')
  end.

Definition json_quote (s : string) : string :=
  String "034"%char (json_escape s) +:+ String "034"%char EmptyString.

(** A serialiser in the layout of [json.dumps], for the examples. *)
Fixpoint sample_dumps (v : pyval) : string :=
  match v with
  | PyNone => "null"
  | PyBool true => "true"
  | PyBool false => "false"
  | PyInt n => str_int n
  | PyStr s => json_quote s
  | PyList items => "[" +:+ join ", " (map sample_dumps items) +:+ "]"
  | PyDict kvs =>
      "{" +:+
      join ", " (map (λ '(k, v'), json_quote k +:+ ": " +:+ sample_dumps v') kvs)
      +:+ "}"
  end.

(** A service that knows one API key: it answers 200 with a page to a
    request that carries the key, and 401 to any other. *)
Definition keyed_service (key page : string) (r : request) : outcome :=
  if decide (headers r !! "Authorization" = Some ("Bearer " +:+ key))
  then Responds (mk_response 200 page)
  else Responds (mk_response 401 "{}").

(** A service that answers every request with the same status. *)
Definition failing_service (code : Z) (r : request) : outcome :=
  Responds (mk_response code "{}").

(** A service that cannot be reached: the client raises. *)
Definition unreachable_service (r : request) : outcome :=
  Fails (Exception ("Cannot connect to host " +:+ endpoint r)).

Definition sample_env (service : request → outcome) : Externals :=
  {| json_dumps := sample_dumps; post := service |}.

(** A configuration with the per-result details of a search switched on and
    custom pre-handler scripts in use. *)
Definition sample_config : Config.t := {|
  Config.provider := {| ProviderCfg.jina_api_key := "jina_test" |};
  Config.search := {|
    SearchCfg.search_nation := "not-specified";
    SearchCfg.search_language := "en";
    SearchCfg.crawl_details := true;
    SearchCfg.timeout := 30;
    SearchCfg.engine_mode := "fast";
    SearchCfg.remove_pictures := true;
    SearchCfg.move_links_to_end := false;
    SearchCfg.move_pics_to_end := false;
    SearchCfg.add_pic_alt := true |};
  Config.extract := {|
    ExtractCfg.timeout := 0;
    ExtractCfg.follow_redirect := true;
    ExtractCfg.use_custom_prehandler_scripts := true;
    ExtractCfg.custom_prehandler_scripts_list := ["a"; "b"];
    ExtractCfg.include_shadow_dom := false;
    ExtractCfg.include_iframes := true;
    ExtractCfg.remove_pictures := false;
    ExtractCfg.use_readerlm_v2 := false;
    ExtractCfg.move_links_to_end := true;
    ExtractCfg.move_pics_to_end := false;
    ExtractCfg.add_pic_alt := false;
    ExtractCfg.optimize_for_gpt_oss := true;
    ExtractCfg.engine_mode := "quality" |}
|}.

(** A host whose parameter types and tool descriptions are plain strings. *)
Definition sample_host : PluginSystem :=
  {| ToolParamType := string; STRING := "string"; ComponentInfo := string |}.

(** The provider and search settings of [default_config] with the
    extraction settings of [sample_config]. *)
Definition mixed_config : Config.t := {|
  Config.provider := Config.provider default_config;
  Config.search := Config.search default_config;
  Config.extract := Config.extract sample_config
|}.

(** [cfg] with the [crawl_details] flag of its [search] section replaced. *)
Definition with_crawl_details (b : bool) (cfg : Config.t) : Config.t := {|
  Config.provider := Config.provider cfg;
  Config.search := {|
    SearchCfg.search_nation := SearchCfg.search_nation (Config.search cfg);
    SearchCfg.search_language := SearchCfg.search_language (Config.search cfg);
    SearchCfg.crawl_details := b;
    SearchCfg.timeout := SearchCfg.timeout (Config.search cfg);
    SearchCfg.engine_mode := SearchCfg.engine_mode (Config.search cfg);
    SearchCfg.remove_pictures := SearchCfg.remove_pictures (Config.search cfg);
    SearchCfg.move_links_to_end := SearchCfg.move_links_to_end (Config.search cfg);
    SearchCfg.move_pics_to_end := SearchCfg.move_pics_to_end (Config.search cfg);
    SearchCfg.add_pic_alt := SearchCfg.add_pic_alt (Config.search cfg) |};
  Config.extract := Config.extract cfg
|}.

(** * Properties *)

(** ** Decimal strings *)

Lemma to_int_digits (n : Z) (sign : Decimal.uint → Decimal.signed_int) :
  sign = Decimal.Pos ∨ sign = Decimal.Neg → Z.to_int n ≠ sign Decimal.Nil.
Proof.
  intros Hsign Hnil.
  destruct n as [|p|p]; simpl in Hnil; destruct Hsign; subst sign;
    try discriminate; injection Hnil; apply Unsigned.to_uint_nonnil.
Qed.

Lemma str_int_parse (n : Z) : parse_int (str_int n) = Some n.
Proof.
  unfold parse_int, str_int.
  rewrite NilZero.isi by (apply to_int_digits; auto).
  simpl. by rewrite DecimalZ.of_to.
Qed.

Lemma str_int_inj (m n : Z) : str_int m = str_int n → m = n.
Proof.
  intros Heq. apply (f_equal parse_int) in Heq.
  rewrite !str_int_parse in Heq. congruence.
Qed.

Example str_int_500 : str_int 500 = "500".
Proof. reflexivity. Qed.

Example str_int_neg : str_int (-30) = "-30".
Proof. reflexivity. Qed.

(** ** Looking a header up through a chain of conditional updates *)

Section when_lookup.
Context {V : Type}.
Implicit Types (h : gmap string V) (k : string) (c : bool).

Lemma lookup_when_insert_eq c k v h :
  when c <[k:=v]> h !! k = if c then Some v else h !! k.
Proof. destruct c; simpl; [apply lookup_insert_eq | done]. Qed.

Lemma lookup_when_other c (update : gmap string V → gmap string V) h k :
  (∀ h', update h' !! k = h' !! k) → when c update h !! k = h !! k.
Proof. intros Hupd. destruct c; simpl; [apply Hupd | done]. Qed.

Lemma lookup_when_unfold c (update : gmap string V → gmap string V) h k :
  when c update h !! k = if c then update h !! k else h !! k.
Proof. by destruct c. Qed.

Lemma lookup_when_insert_ne c k k' v h :
  k ≠ k' → when c <[k:=v]> h !! k' = h !! k'.
Proof. intros ?. apply lookup_when_other. intros. by apply lookup_insert_ne. Qed.

End when_lookup.

(** Pushes a lookup at a literal header name through the updates. *)
Ltac lookup_step :=
  first
    [ rewrite lookup_when_insert_eq
    | rewrite lookup_when_insert_ne by done
    | rewrite lookup_insert_eq
    | rewrite lookup_insert_ne by done
    | rewrite lookup_singleton_eq
    | rewrite lookup_singleton_ne by done
    | rewrite lookup_empty
    | rewrite lookup_when_other
        by (intros; cbv beta zeta; repeat lookup_step; reflexivity) ].

Ltac lookup_chain := cbv beta zeta; repeat lookup_step.

(** ** The headers of a search *)

Lemma search_headers_plain (cfg : Config.t) :
  SearchCfg.crawl_details (Config.search cfg) = false →
  WebSearchTool.headers cfg =
    <["X-Respond-With" := "no-content"]>
      (<["Content-Type" := "application/json"]>
         {["Authorization" :=
             "Bearer " +:+ ProviderCfg.jina_api_key (Config.provider cfg)]}).
Proof. intros Hoff. unfold WebSearchTool.headers. by rewrite Hoff. Qed.

Lemma search_headers_engine (cfg : Config.t) :
  SearchCfg.crawl_details (Config.search cfg) = true →
  WebSearchTool.headers cfg !! "X-Engine" =
    if decide (SearchCfg.engine_mode (Config.search cfg) = "fast")
    then Some "direct"
    else if decide (SearchCfg.engine_mode (Config.search cfg) = "quality")
    then Some "browser"
    else None.
Proof.
  intros Hon. unfold WebSearchTool.headers. rewrite Hon.
  lookup_chain. repeat case_decide; by lookup_chain.
Qed.

Lemma search_headers_timeout (cfg : Config.t) :
  SearchCfg.crawl_details (Config.search cfg) = true →
  WebSearchTool.headers cfg !! "X-Timeout" =
    if bool_decide (SearchCfg.timeout (Config.search cfg) > 0)
    then Some (str_int (SearchCfg.timeout (Config.search cfg)))
    else None.
Proof.
  intros Hon. unfold WebSearchTool.headers. rewrite Hon.
  lookup_chain. case_bool_decide; [done|].
  repeat case_decide; by lookup_chain.
Qed.

Lemma search_headers_toggle (cfg : Config.t) (x : Toggle.t) (b : bool) :
  SearchCfg.crawl_details (Config.search cfg) = true →
  Toggle.of_search (Config.search cfg) x = Some b →
  WebSearchTool.headers cfg !! Toggle.header x =
    if b then Some (Toggle.value x) else None.
Proof.
  intros Hon Hx. unfold WebSearchTool.headers. rewrite Hon.
  destruct x; simplify_eq/=; lookup_chain;
    (destruct_decide (decide (SearchCfg.engine_mode (Config.search cfg) = "fast"));
     [|destruct_decide
         (decide (SearchCfg.engine_mode (Config.search cfg) = "quality"))]);
    by lookup_chain.
Qed.

(** ** The headers of an extraction *)

Ltac split_engine e :=
  destruct_decide (decide (ExtractCfg.engine_mode e = "fast"));
  [|destruct_decide (decide (ExtractCfg.engine_mode e = "quality"))].

Lemma crawl_headers_engine (cfg : Config.t) :
  UrlCrawlTool.headers cfg !! "X-Engine" =
    if decide (ExtractCfg.engine_mode (Config.extract cfg) = "fast")
    then Some "direct"
    else if decide (ExtractCfg.engine_mode (Config.extract cfg) = "quality")
    then Some "browser"
    else None.
Proof.
  unfold UrlCrawlTool.headers. lookup_chain.
  split_engine (Config.extract cfg); by lookup_chain.
Qed.

Lemma crawl_headers_timeout (cfg : Config.t) :
  UrlCrawlTool.headers cfg !! "X-Timeout" =
    if bool_decide (ExtractCfg.timeout (Config.extract cfg) > 0)
    then Some (str_int (ExtractCfg.timeout (Config.extract cfg)))
    else None.
Proof.
  unfold UrlCrawlTool.headers. lookup_chain. case_bool_decide; [done|].
  split_engine (Config.extract cfg); by lookup_chain.
Qed.

Lemma crawl_headers_scripts_list (cfg : Config.t) :
  UrlCrawlTool.headers cfg !! "X-Custom-Prehandler-Scripts-List" =
    if ExtractCfg.use_custom_prehandler_scripts (Config.extract cfg)
    then
      match ExtractCfg.custom_prehandler_scripts_list (Config.extract cfg) with
      | [] => None
      | scripts => Some (join "," scripts)
      end
    else None.
Proof.
  unfold UrlCrawlTool.headers. lookup_chain.
  rewrite lookup_when_unfold.
  destruct (ExtractCfg.use_custom_prehandler_scripts _); lookup_chain.
  - destruct (ExtractCfg.custom_prehandler_scripts_list _) as [|script scripts];
      simpl; [|done].
    lookup_chain. split_engine (Config.extract cfg); by lookup_chain.
  - split_engine (Config.extract cfg); by lookup_chain.
Qed.

Lemma crawl_headers_toggle (cfg : Config.t) (x : Toggle.t) :
  UrlCrawlTool.headers cfg !! Toggle.header x =
    if Toggle.of_extract (Config.extract cfg) x
    then Some (Toggle.value x)
    else None.
Proof.
  unfold UrlCrawlTool.headers.
  destruct x; simpl; lookup_chain;
    try (rewrite lookup_when_unfold;
         destruct (ExtractCfg.use_custom_prehandler_scripts _);
         lookup_chain; [done|]);
    try (destruct (_ : bool); [done|]);
    split_engine (Config.extract cfg); by lookup_chain.
Qed.

(** ** The headers, property by property *)

(** C4: with [crawl_details] off, a search carries the metadata-only header
    [X-Respond-With: no-content] and none of the per-result detail headers,
    whatever the detail switches, [engine_mode] and [timeout] are. *)
Theorem search_without_details (cfg : Config.t) :
  SearchCfg.crawl_details (Config.search cfg) = false →
  WebSearchTool.headers cfg !! "X-Respond-With" = Some "no-content" ∧
  ∀ k, k ∈ detail_headers → WebSearchTool.headers cfg !! k = None.
Proof.
  intros Hoff. rewrite search_headers_plain by done. split; [done|].
  intros k Hk. unfold detail_headers in Hk.
  repeat (apply elem_of_cons in Hk as [->|Hk]; [done|]).
  by apply elem_of_nil in Hk.
Qed.

Lemma search_without_details_witness :
  WebSearchTool.headers default_config !! "X-Respond-With" = Some "no-content" ∧
  ∀ k, k ∈ detail_headers → WebSearchTool.headers default_config !! k = None.
Proof. apply (search_without_details default_config). reflexivity. Defined.

(** C5: a search with [crawl_details] on sends [X-Engine: direct] for
    [engine_mode = "fast"], [X-Engine: browser] for ["quality"] and no
    [X-Engine] for any other mode; an extraction maps [engine_mode] the same
    way, with no flag in front. *)
Theorem engine_mode_header (cfg : Config.t) :
  (SearchCfg.crawl_details (Config.search cfg) = true →
   (SearchCfg.engine_mode (Config.search cfg) = "fast" →
    WebSearchTool.headers cfg !! "X-Engine" = Some "direct") ∧
   (SearchCfg.engine_mode (Config.search cfg) = "quality" →
    WebSearchTool.headers cfg !! "X-Engine" = Some "browser") ∧
   (SearchCfg.engine_mode (Config.search cfg) ≠ "fast" →
    SearchCfg.engine_mode (Config.search cfg) ≠ "quality" →
    WebSearchTool.headers cfg !! "X-Engine" = None)) ∧
  (ExtractCfg.engine_mode (Config.extract cfg) = "fast" →
   UrlCrawlTool.headers cfg !! "X-Engine" = Some "direct") ∧
  (ExtractCfg.engine_mode (Config.extract cfg) = "quality" →
   UrlCrawlTool.headers cfg !! "X-Engine" = Some "browser") ∧
  (ExtractCfg.engine_mode (Config.extract cfg) ≠ "fast" →
   ExtractCfg.engine_mode (Config.extract cfg) ≠ "quality" →
   UrlCrawlTool.headers cfg !! "X-Engine" = None).
Proof.
  split.
  - intros Hon. rewrite search_headers_engine by done.
    repeat split; intros; repeat case_decide; congruence.
  - rewrite crawl_headers_engine.
    repeat split; intros; repeat case_decide; congruence.
Qed.

Lemma engine_mode_header_witness :
  WebSearchTool.headers sample_config !! "X-Engine" = Some "direct" ∧
  UrlCrawlTool.headers sample_config !! "X-Engine" = Some "browser".
Proof.
  destruct (engine_mode_header sample_config) as [Hsearch [_ [Hcrawl _]]].
  split.
  - apply Hsearch; reflexivity.
  - apply Hcrawl; reflexivity.
Defined.

(** C7: in a search with [crawl_details] on and in an extraction, a
    [timeout] of zero or less sends no [X-Timeout], and a positive one sends
    [X-Timeout] with the decimal string of the value. *)
Theorem timeout_header (cfg : Config.t) :
  (SearchCfg.crawl_details (Config.search cfg) = true →
   (SearchCfg.timeout (Config.search cfg) ≤ 0 →
    WebSearchTool.headers cfg !! "X-Timeout" = None) ∧
   (SearchCfg.timeout (Config.search cfg) > 0 →
    WebSearchTool.headers cfg !! "X-Timeout" =
      Some (str_int (SearchCfg.timeout (Config.search cfg))))) ∧
  (ExtractCfg.timeout (Config.extract cfg) ≤ 0 →
   UrlCrawlTool.headers cfg !! "X-Timeout" = None) ∧
  (ExtractCfg.timeout (Config.extract cfg) > 0 →
   UrlCrawlTool.headers cfg !! "X-Timeout" =
     Some (str_int (ExtractCfg.timeout (Config.extract cfg)))).
Proof.
  split.
  - intros Hon. rewrite search_headers_timeout by done.
    split; intros; case_bool_decide; [lia|done|done|lia].
  - rewrite crawl_headers_timeout.
    split; intros; case_bool_decide; [lia|done|done|lia].
Qed.

Lemma timeout_header_witness :
  WebSearchTool.headers sample_config !! "X-Timeout" = Some "30" ∧
  UrlCrawlTool.headers sample_config !! "X-Timeout" = None ∧
  UrlCrawlTool.headers default_config !! "X-Timeout" = Some "10".
Proof.
  destruct (timeout_header sample_config) as [Hsearch [Hcrawl _]].
  destruct (timeout_header default_config) as [_ [_ Hdefault]].
  split; [|split].
  - apply Hsearch; [reflexivity | simpl; lia].
  - apply Hcrawl. simpl. lia.
  - apply Hdefault. simpl. lia.
Defined.

(** C8: in an extraction with [use_custom_prehandler_scripts] on, the
    scripts [["a", "b"]] give [X-Custom-Prehandler-Scripts-List: a,b] (any
    non-empty list gives its comma-join) next to
    [X-Use-Custom-Prehandler-Scripts: true]; an empty list gives the usage
    header alone; with the switch off the list header is absent, also for a
    non-empty list. *)
Theorem prehandler_scripts_headers (cfg : Config.t) :
  let e := Config.extract cfg in
  let headers := UrlCrawlTool.headers cfg in
  (ExtractCfg.use_custom_prehandler_scripts e = true →
   headers !! "X-Use-Custom-Prehandler-Scripts" = Some "true" ∧
   (ExtractCfg.custom_prehandler_scripts_list e = ["a"; "b"] →
    headers !! "X-Custom-Prehandler-Scripts-List" = Some "a,b") ∧
   (ExtractCfg.custom_prehandler_scripts_list e ≠ [] →
    headers !! "X-Custom-Prehandler-Scripts-List" =
      Some (join "," (ExtractCfg.custom_prehandler_scripts_list e))) ∧
   (ExtractCfg.custom_prehandler_scripts_list e = [] →
    headers !! "X-Custom-Prehandler-Scripts-List" = None)) ∧
  (ExtractCfg.use_custom_prehandler_scripts e = false →
   headers !! "X-Custom-Prehandler-Scripts-List" = None).
Proof.
  intros e headers. subst headers.
  pose proof (crawl_headers_toggle cfg Toggle.use_custom_prehandler_scripts)
    as Huse.
  simpl in Huse. rewrite crawl_headers_scripts_list. fold e in Huse |- *.
  split.
  - intros Hon. rewrite Hon in Huse |- *. split; [done|].
    repeat split.
    + by intros ->.
    + intros Hne. by destruct (ExtractCfg.custom_prehandler_scripts_list e).
    + by intros ->.
  - by intros ->.
Qed.

Lemma prehandler_scripts_headers_witness :
  UrlCrawlTool.headers sample_config !! "X-Use-Custom-Prehandler-Scripts" =
    Some "true" ∧
  UrlCrawlTool.headers sample_config !! "X-Custom-Prehandler-Scripts-List" =
    Some "a,b" ∧
  UrlCrawlTool.headers default_config !! "X-Custom-Prehandler-Scripts-List" =
    None.
Proof.
  destruct (prehandler_scripts_headers sample_config) as [Hon _].
  destruct (Hon eq_refl) as [Huse [Hab _]].
  destruct (prehandler_scripts_headers default_config) as [_ Hoff].
  split; [exact Huse | split; [apply Hab; reflexivity | apply Hoff; reflexivity]].
Defined.

(** C6, as stated, fails for the switches of the [search] section: with the
    default configuration [remove_pictures] is on and [crawl_details] is
    off, and the search sends no [X-Retain-Images]. *)
Lemma search_toggle_gated :
  Toggle.of_search (Config.search default_config) Toggle.remove_pictures =
    Some true ∧
  ¬ (WebSearchTool.headers default_config !! Toggle.header Toggle.remove_pictures
     = Some (Toggle.value Toggle.remove_pictures)) ∧
  WebSearchTool.headers default_config !! "X-Retain-Images" = None.
Proof. split; [reflexivity|]. split; [discriminate|reflexivity]. Qed.

(** C6, amended: every switch of the [extract] section is on exactly when
    an extraction carries its header with the fixed value and off exactly
    when the header is absent; for the four switches of the [search] section
    the same holds in a search with [crawl_details] on. *)
Theorem toggle_header_iff (cfg : Config.t) (x : Toggle.t) :
  let on_ (headers : gmap string string) :=
    headers !! Toggle.header x = Some (Toggle.value x) in
  let off (headers : gmap string string) :=
    headers !! Toggle.header x = None in
  ((Toggle.of_extract (Config.extract cfg) x = true ↔
      on_ (UrlCrawlTool.headers cfg)) ∧
   (Toggle.of_extract (Config.extract cfg) x = false ↔
      off (UrlCrawlTool.headers cfg))) ∧
  (SearchCfg.crawl_details (Config.search cfg) = true →
   ∀ b, Toggle.of_search (Config.search cfg) x = Some b →
     (b = true ↔ on_ (WebSearchTool.headers cfg)) ∧
     (b = false ↔ off (WebSearchTool.headers cfg))).
Proof.
  intros on_ off. subst on_ off. cbv beta. split.
  - rewrite crawl_headers_toggle.
    destruct (Toggle.of_extract _ _); naive_solver.
  - intros Hon b Hb. rewrite (search_headers_toggle cfg x b) by done.
    destruct b; naive_solver.
Qed.

Lemma toggle_header_iff_witness :
  WebSearchTool.headers sample_config !! "X-Retain-Images" = Some "none" ∧
  WebSearchTool.headers sample_config !! "X-With-Links-Summary" = None ∧
  UrlCrawlTool.headers sample_config !! "X-Optimize-For-GPT-OSS" = Some "true".
Proof.
  destruct (toggle_header_iff sample_config Toggle.remove_pictures)
    as [_ Hpictures].
  destruct (toggle_header_iff sample_config Toggle.move_links_to_end)
    as [_ Hlinks].
  destruct (toggle_header_iff sample_config Toggle.optimize_for_gpt_oss)
    as [[Hgpt _] _].
  split; [|split].
  - apply (Hpictures eq_refl true eq_refl). reflexivity.
  - apply (Hlinks eq_refl false eq_refl). reflexivity.
  - apply Hgpt. reflexivity.
Defined.

(** ** The body of a search *)

Lemma dict_lookup_set_eq k v d : dict_lookup k (dict_set k v d) = Some v.
Proof.
  induction d as [|[k' v'] d IH]; simpl.
  - by rewrite decide_True.
  - destruct (decide (k = k')) as [->|Hne]; simpl.
    + by rewrite decide_True.
    + by rewrite decide_False.
Qed.

Lemma dict_lookup_set_ne k k' v d :
  k ≠ k' → dict_lookup k' (dict_set k v d) = dict_lookup k' d.
Proof.
  intros Hne. induction d as [|[k0 v0] d IH]; simpl.
  - by rewrite decide_False.
  - destruct (decide (k = k0)) as [->|Hk]; simpl.
    + by rewrite !decide_False.
    + by rewrite IH.
Qed.

(** C9: the body of a search is [{q: keywords}], with [gl] set to
    [search_nation] exactly when that differs from the sentinel
    ["not-specified"], and [hl] set to [search_language] exactly when that
    differs from it; the [crawl_details] flag has no part in it. *)
Theorem search_body_fields (cfg : Config.t) (kw : pyval) :
  let s := Config.search cfg in
  let body := WebSearchTool.body cfg kw in
  body =
    [("q", kw)]
    ++ (if decide (SearchCfg.search_nation s = "not-specified") then []
        else [("gl", PyStr (SearchCfg.search_nation s))])
    ++ (if decide (SearchCfg.search_language s = "not-specified") then []
        else [("hl", PyStr (SearchCfg.search_language s))]) ∧
  dict_lookup "q" body = Some kw ∧
  (SearchCfg.search_nation s ≠ "not-specified" ↔
   dict_lookup "gl" body = Some (PyStr (SearchCfg.search_nation s))) ∧
  (SearchCfg.search_nation s = "not-specified" ↔
   dict_lookup "gl" body = None) ∧
  (SearchCfg.search_language s ≠ "not-specified" ↔
   dict_lookup "hl" body = Some (PyStr (SearchCfg.search_language s))) ∧
  (SearchCfg.search_language s = "not-specified" ↔
   dict_lookup "hl" body = None) ∧
  ∀ b, WebSearchTool.body (with_crawl_details b cfg) kw = body.
Proof.
  intros s body. subst body.
  assert (WebSearchTool.body cfg kw =
    [("q", kw)]
    ++ (if decide (SearchCfg.search_nation s = "not-specified") then []
        else [("gl", PyStr (SearchCfg.search_nation s))])
    ++ (if decide (SearchCfg.search_language s = "not-specified") then []
        else [("hl", PyStr (SearchCfg.search_language s))])) as Hbody.
  { unfold WebSearchTool.body. fold s.
    do 2 case_bool_decide; repeat case_decide; done. }
  split; [done|]. split; [by rewrite Hbody|].
  repeat split; rewrite ?Hbody; repeat case_decide; simpl; naive_solver.
Qed.

Example search_body_default :
  WebSearchTool.body default_config (PyStr "rocq") =
    [("q", PyStr "rocq"); ("gl", PyStr "CN"); ("hl", PyStr "zh-cn")].
Proof. reflexivity. Qed.

Example search_body_sample :
  WebSearchTool.body sample_config PyNone = [("q", PyNone); ("hl", PyStr "en")].
Proof. reflexivity. Qed.

Example search_headers_default :
  present ("X-Respond-With" :: detail_headers)
    (WebSearchTool.headers default_config) =
    [("X-Respond-With", "no-content")].
Proof. vm_compute. reflexivity. Qed.

Example search_headers_sample :
  present ("X-Respond-With" :: detail_headers)
    (WebSearchTool.headers sample_config) =
    [("X-Engine", "direct"); ("X-Timeout", "30"); ("X-Retain-Images", "none");
     ("X-With-Generated-Alt", "true")].
Proof. vm_compute. reflexivity. Qed.

Example crawl_headers_sample :
  present
    (["Authorization"; "Content-Type"; "X-Follow-Redirects";
      "X-Use-Custom-Prehandler-Scripts"; "X-Custom-Prehandler-Scripts-List";
      "X-Include-Shadow-DOM"; "X-Include-Iframes"; "X-Use-ReaderLM-V2";
      "X-Optimize-For-GPT-OSS"] ++ detail_headers)
    (UrlCrawlTool.headers sample_config) =
    [("Authorization", "Bearer jina_test");
     ("Content-Type", "application/json");
     ("X-Follow-Redirects", "true");
     ("X-Use-Custom-Prehandler-Scripts", "true");
     ("X-Custom-Prehandler-Scripts-List", "a,b");
     ("X-Include-Iframes", "true");
     ("X-Optimize-For-GPT-OSS", "true");
     ("X-Engine", "browser");
     ("X-With-Links-Summary", "true")].
Proof. vm_compute. reflexivity. Qed.

(** A call without the required key posts [{"q": null}]. *)
Example search_without_keywords :
  let env := sample_env (keyed_service "jina_test" "[]") in
  (@WebSearchTool.execute env sample_config [] []).1 =
    Return (PyDict [("name", PyStr "search_web"); ("content", PyStr "[]")]) ∧
  data <$> (@WebSearchTool.execute env sample_config [] []).2 =
    ["{" +:+ json_quote "q" +:+ ": null, " +:+
     json_quote "hl" +:+ ": " +:+ json_quote "en" +:+ "}"].
Proof. vm_compute. split; reflexivity. Qed.

(** ** The tool calls *)

(** A key that [function_args] does not hold reads as [None]. *)
Lemma dict_get_missing (k : string) (d : list (string * pyval)) :
  dict_lookup k d = None → dict_get k d = PyNone.
Proof. unfold dict_get. by intros ->. Qed.

Section tool_calls.
Context `{Externals}.
Implicit Types (cfg : Config.t) (args : list (string * pyval)).
Implicit Types (posted : list request).

(** What [execute] of the search tool comes to, for each outcome of the
    POST. *)
Lemma search_execute_run cfg args posted :
  let r := WebSearchTool.request cfg (dict_get "keywords" args) in
  WebSearchTool.execute cfg args posted =
    (Return (PyDict
       [("name", PyStr "search_web");
        ("content", PyStr
           match post r with
           | Responds resp =>
               if bool_decide (status resp = 200) then text resp
               else "搜索失败: " +:+
                    ("搜索请求失败，状态码: " +:+ str_int (status resp))
           | Fails e => "搜索失败: " +:+ str_exn e
           end)]),
     posted ++ [r]).
Proof.
  intros r. subst r.
  unfold WebSearchTool.execute, WebSearchTool.search, try_except.
  unfold mbind, io_bind, session_post.
  destruct (post _) as [resp|e]; [|done].
  case_bool_decide; done.
Qed.

(** What [execute] of the extraction tool comes to, for each outcome of the
    POST. *)
Lemma crawl_execute_run cfg args posted :
  let r := UrlCrawlTool.request cfg (dict_get "url" args) in
  UrlCrawlTool.execute cfg args posted =
    (Return (PyDict
       [("name", PyStr "crawl_url");
        ("content", PyStr
           match post r with
           | Responds resp =>
               if bool_decide (status resp = 200) then text resp
               else "内容提取失败: " +:+
                    ("内容提取请求失败，状态码: " +:+ str_int (status resp))
           | Fails e => "内容提取失败: " +:+ str_exn e
           end)]),
     posted ++ [r]).
Proof.
  intros r. subst r.
  unfold UrlCrawlTool.execute, UrlCrawlTool.crawl, try_except.
  unfold mbind, io_bind, session_post.
  destruct (post _) as [resp|e]; [|done].
  case_bool_decide; done.
Qed.

(** [search] and [crawl] themselves raise on a status other than 200. *)
Lemma search_raises cfg kw posted resp :
  post (WebSearchTool.request cfg kw) = Responds resp →
  status resp ≠ 200 →
  WebSearchTool.search cfg kw posted =
    (Raise (Exception ("搜索请求失败，状态码: " +:+ str_int (status resp))),
     posted ++ [WebSearchTool.request cfg kw]).
Proof.
  intros Hpost Hstatus.
  unfold WebSearchTool.search, mbind, io_bind, session_post.
  rewrite Hpost. by rewrite bool_decide_false.
Qed.

Lemma crawl_raises cfg url posted resp :
  post (UrlCrawlTool.request cfg url) = Responds resp →
  status resp ≠ 200 →
  UrlCrawlTool.crawl cfg url posted =
    (Raise (Exception ("内容提取请求失败，状态码: " +:+ str_int (status resp))),
     posted ++ [UrlCrawlTool.request cfg url]).
Proof.
  intros Hpost Hstatus.
  unfold UrlCrawlTool.crawl, mbind, io_bind, session_post.
  rewrite Hpost. by rewrite bool_decide_false.
Qed.

(** An exception of the HTTP client passes through [search] and [crawl]
    and ends as the content of the result. *)
Lemma client_error_wrapped cfg args posted e :
  (post (WebSearchTool.request cfg (dict_get "keywords" args)) = Fails e →
   (WebSearchTool.search cfg (dict_get "keywords" args) posted).1 = Raise e ∧
   (WebSearchTool.execute cfg args posted).1 =
     Return (PyDict [("name", PyStr "search_web");
                     ("content", PyStr ("搜索失败: " +:+ str_exn e))])) ∧
  (post (UrlCrawlTool.request cfg (dict_get "url" args)) = Fails e →
   (UrlCrawlTool.crawl cfg (dict_get "url" args) posted).1 = Raise e ∧
   (UrlCrawlTool.execute cfg args posted).1 =
     Return (PyDict [("name", PyStr "crawl_url");
                     ("content", PyStr ("内容提取失败: " +:+ str_exn e))])).
Proof.
  rewrite search_execute_run, crawl_execute_run.
  unfold WebSearchTool.search, UrlCrawlTool.crawl, mbind, io_bind, session_post.
  split; intros ->; done.
Qed.

End tool_calls.

(** C1: for every configuration and every [function_args] (also one
    without the required key, which then reads as [None]), [execute] of
    each tool returns [{name, content}] with the tool's name and a string
    as content; whatever [search] or [crawl] raises is caught and handed
    back as a content string, and nothing is raised to the host. *)
Theorem execute_always_returns `{Externals} (cfg : Config.t)
    (args : list (string * pyval)) (posted : list request) :
  (∃ content : string,
     (WebSearchTool.execute cfg args posted).1 =
       Return (PyDict [("name", PyStr WebSearchTool.name);
                       ("content", PyStr content)])) ∧
  (∃ content : string,
     (UrlCrawlTool.execute cfg args posted).1 =
       Return (PyDict [("name", PyStr UrlCrawlTool.name);
                       ("content", PyStr content)])) ∧
  (∀ e,
     (WebSearchTool.search cfg (dict_get "keywords" args) posted).1 = Raise e →
     (WebSearchTool.execute cfg args posted).1 =
       Return (PyDict [("name", PyStr WebSearchTool.name);
                       ("content", PyStr ("搜索失败: " +:+ str_exn e))])) ∧
  (∀ e,
     (UrlCrawlTool.crawl cfg (dict_get "url" args) posted).1 = Raise e →
     (UrlCrawlTool.execute cfg args posted).1 =
       Return (PyDict [("name", PyStr UrlCrawlTool.name);
                       ("content", PyStr ("内容提取失败: " +:+ str_exn e))])).
Proof.
  split; [|split; [|split]].
  - rewrite search_execute_run. eexists; reflexivity.
  - rewrite crawl_execute_run. eexists; reflexivity.
  - intros e. unfold WebSearchTool.execute, try_except, mbind, io_bind.
    destruct (WebSearchTool.search _ _ _) as [[page|e'] posted']; simpl;
      [done|]. by intros [= ->].
  - intros e. unfold UrlCrawlTool.execute, try_except, mbind, io_bind.
    destruct (UrlCrawlTool.crawl _ _ _) as [[page|e'] posted']; simpl;
      [done|]. by intros [= ->].
Qed.

Lemma execute_always_returns_witness :
  let env := sample_env unreachable_service in
  (@WebSearchTool.execute env default_config [] []).1 =
    Return (PyDict
      [("name", PyStr "search_web");
       ("content",
        PyStr "搜索失败: Cannot connect to host https://s.jina.ai/")]) ∧
  (@UrlCrawlTool.execute env default_config [] []).1 =
    Return (PyDict
      [("name", PyStr "crawl_url");
       ("content",
        PyStr "内容提取失败: Cannot connect to host https://r.jina.ai/")]).
Proof.
  intros env.
  destruct (@execute_always_returns env default_config [] [])
    as [_ [_ [Hsearch Hcrawl]]].
  split.
  - apply (Hsearch (Exception "Cannot connect to host https://s.jina.ai/")).
    reflexivity.
  - apply (Hcrawl (Exception "Cannot connect to host https://r.jina.ai/")).
    reflexivity.
Defined.

(** C2: when the service answers 200, [execute] returns the text of the
    response unchanged as the content: a body ["OK-RESULT"] gives
    [{name: "search_web", content: "OK-RESULT"}], and
    [{name: "crawl_url", content: "OK-RESULT"}] for the extraction tool. *)
Theorem ok_response_verbatim `{Externals} (cfg : Config.t)
    (args : list (string * pyval)) (posted : list request) (page : string) :
  (post (WebSearchTool.request cfg (dict_get "keywords" args)) =
     Responds (mk_response 200 page) →
   (WebSearchTool.execute cfg args posted).1 =
     Return (PyDict [("name", PyStr "search_web"); ("content", PyStr page)])) ∧
  (post (UrlCrawlTool.request cfg (dict_get "url" args)) =
     Responds (mk_response 200 page) →
   (UrlCrawlTool.execute cfg args posted).1 =
     Return (PyDict [("name", PyStr "crawl_url"); ("content", PyStr page)])).
Proof.
  rewrite search_execute_run, crawl_execute_run.
  split; intros ->; reflexivity.
Qed.

Lemma ok_response_verbatim_witness :
  let env := sample_env (keyed_service "jina_test" "OK-RESULT") in
  (@WebSearchTool.execute env sample_config [("keywords", PyStr "rocq")] []).1 =
    Return (PyDict [("name", PyStr "search_web");
                    ("content", PyStr "OK-RESULT")]) ∧
  (@UrlCrawlTool.execute env sample_config
     [("url", PyStr "https://rocq-prover.org/")] []).1 =
    Return (PyDict [("name", PyStr "crawl_url");
                    ("content", PyStr "OK-RESULT")]).
Proof.
  intros env.
  destruct (@ok_response_verbatim env sample_config
              [("keywords", PyStr "rocq")] [] "OK-RESULT") as [Hsearch _].
  destruct (@ok_response_verbatim env sample_config
              [("url", PyStr "https://rocq-prover.org/")] [] "OK-RESULT")
    as [_ Hcrawl].
  split.
  - apply Hsearch. reflexivity.
  - apply Hcrawl. reflexivity.
Defined.

(** C3: when the service answers a status [s] other than 200, the search
    tool returns the content ["搜索失败: 搜索请求失败，状态码: s"] (for 500,
    ["搜索失败: 搜索请求失败，状态码: 500"]) and the extraction tool returns
    ["内容提取失败: 内容提取请求失败，状态码: s"]. *)
Theorem failure_status_message `{Externals} (cfg : Config.t)
    (args : list (string * pyval)) (posted : list request)
    (s : Z) (page : string) :
  s ≠ 200 →
  (post (WebSearchTool.request cfg (dict_get "keywords" args)) =
     Responds (mk_response s page) →
   (WebSearchTool.execute cfg args posted).1 =
     Return (PyDict
       [("name", PyStr "search_web");
        ("content", PyStr ("搜索失败: 搜索请求失败，状态码: " +:+ str_int s))])) ∧
  (post (UrlCrawlTool.request cfg (dict_get "url" args)) =
     Responds (mk_response s page) →
   (UrlCrawlTool.execute cfg args posted).1 =
     Return (PyDict
       [("name", PyStr "crawl_url");
        ("content",
         PyStr ("内容提取失败: 内容提取请求失败，状态码: " +:+ str_int s))])).
Proof.
  intros Hs. rewrite search_execute_run, crawl_execute_run.
  split; intros ->; simpl; by rewrite bool_decide_false.
Qed.

Lemma failure_status_message_witness :
  let env := sample_env (failing_service 500) in
  (@WebSearchTool.execute env default_config [("keywords", PyStr "rocq")] []).1 =
    Return (PyDict
      [("name", PyStr "search_web");
       ("content", PyStr "搜索失败: 搜索请求失败，状态码: 500")]) ∧
  (@UrlCrawlTool.execute env default_config
     [("url", PyStr "https://rocq-prover.org/")] []).1 =
    Return (PyDict
      [("name", PyStr "crawl_url");
       ("content", PyStr "内容提取失败: 内容提取请求失败，状态码: 500")]).
Proof.
  intros env.
  destruct (@failure_status_message env default_config
              [("keywords", PyStr "rocq")] [] 500 "{}") as [Hsearch _]; [lia|].
  destruct (@failure_status_message env default_config
              [("url", PyStr "https://rocq-prover.org/")] [] 500 "{}")
    as [_ Hcrawl]; [lia|].
  split.
  - apply Hsearch. reflexivity.
  - apply Hcrawl. reflexivity.
Defined.

(** ** The API key *)

Lemma search_headers_fixed (cfg : Config.t) :
  WebSearchTool.headers cfg !! "Authorization" =
    Some ("Bearer " +:+ ProviderCfg.jina_api_key (Config.provider cfg)) ∧
  WebSearchTool.headers cfg !! "Content-Type" = Some "application/json".
Proof.
  unfold WebSearchTool.headers.
  destruct (SearchCfg.crawl_details _); split; lookup_chain;
    repeat case_decide; by lookup_chain.
Qed.

Lemma crawl_headers_fixed (cfg : Config.t) :
  UrlCrawlTool.headers cfg !! "Authorization" =
    Some ("Bearer " +:+ ProviderCfg.jina_api_key (Config.provider cfg)) ∧
  UrlCrawlTool.headers cfg !! "Content-Type" = Some "application/json".
Proof.
  unfold UrlCrawlTool.headers.
  split; lookup_chain; split_engine (Config.extract cfg); by lookup_chain.
Qed.

(** C10: for every configuration, also one with an empty
    [provider.jina_api_key], both tools build and send their request with
    [Authorization: Bearer <key>] and [Content-Type: application/json]; the
    key is not looked at before the call, so an empty key shows only when
    the service turns the request down, as an error content string. *)
Theorem api_key_not_validated `{Externals} (cfg : Config.t)
    (args : list (string * pyval)) (posted : list request) :
  let key := ProviderCfg.jina_api_key (Config.provider cfg) in
  let searched := WebSearchTool.request cfg (dict_get "keywords" args) in
  let crawled := UrlCrawlTool.request cfg (dict_get "url" args) in
  ((WebSearchTool.execute cfg args posted).2 = posted ++ [searched] ∧
   headers searched !! "Authorization" = Some ("Bearer " +:+ key) ∧
   headers searched !! "Content-Type" = Some "application/json") ∧
  ((UrlCrawlTool.execute cfg args posted).2 = posted ++ [crawled] ∧
   headers crawled !! "Authorization" = Some ("Bearer " +:+ key) ∧
   headers crawled !! "Content-Type" = Some "application/json") ∧
  (key = "" →
   headers searched !! "Authorization" = Some "Bearer " ∧
   headers crawled !! "Authorization" = Some "Bearer " ∧
   ∀ s page, s ≠ 200 →
     (post searched = Responds (mk_response s page) →
      (WebSearchTool.execute cfg args posted).1 =
        Return (PyDict
          [("name", PyStr "search_web");
           ("content",
            PyStr ("搜索失败: 搜索请求失败，状态码: " +:+ str_int s))])) ∧
     (post crawled = Responds (mk_response s page) →
      (UrlCrawlTool.execute cfg args posted).1 =
        Return (PyDict
          [("name", PyStr "crawl_url");
           ("content",
            PyStr ("内容提取失败: 内容提取请求失败，状态码: " +:+ str_int s))]))).
Proof.
  intros key searched crawled.
  destruct (search_headers_fixed cfg) as [Hsa Hsc].
  destruct (crawl_headers_fixed cfg) as [Hca Hcc].
  rewrite search_execute_run, crawl_execute_run. fold searched crawled.
  fold key in Hsa, Hca.
  split; [done|]. split; [done|].
  intros Hkey. rewrite Hkey in Hsa, Hca.
  split; [done|]. split; [done|].
  intros s page Hs.
  split; intros ->; simpl; by rewrite bool_decide_false.
Qed.

Lemma api_key_not_validated_witness :
  let env := sample_env (keyed_service "jina_test" "OK-RESULT") in
  (@WebSearchTool.execute env default_config [("keywords", PyStr "rocq")] []).1 =
    Return (PyDict
      [("name", PyStr "search_web");
       ("content", PyStr "搜索失败: 搜索请求失败，状态码: 401")]) ∧
  (@UrlCrawlTool.execute env default_config
     [("url", PyStr "https://rocq-prover.org/")] []).1 =
    Return (PyDict
      [("name", PyStr "crawl_url");
       ("content", PyStr "内容提取失败: 内容提取请求失败，状态码: 401")]).
Proof.
  intros env.
  destruct (@api_key_not_validated env default_config
              [("keywords", PyStr "rocq")] []) as [_ [_ Hsearch]].
  destruct (@api_key_not_validated env default_config
              [("url", PyStr "https://rocq-prover.org/")] []) as [_ [_ Hcrawl]].
  destruct (Hsearch eq_refl) as [_ [_ Hsearch']].
  destruct (Hcrawl eq_refl) as [_ [_ Hcrawl']].
  split.
  - apply (Hsearch' 401 "{}"); [lia | reflexivity].
  - apply (Hcrawl' 401 "{}"); [lia | reflexivity].
Defined.

(** * Further properties of the code *)

(** ** Which headers can be sent at all *)

Ltac absent_names Hk :=
  unfold search_header_names, crawl_header_names, detail_headers in Hk;
  simpl in Hk; rewrite !not_elem_of_cons in Hk; destruct_and!.

(** X1: whatever the configuration, a search sends no header other than
    [Authorization], [Content-Type], [X-Respond-With] and the six detail
    headers; none of the extraction-only headers can appear. *)
Theorem search_headers_bounded (cfg : Config.t) (k : string) :
  is_Some (WebSearchTool.headers cfg !! k) → k ∈ search_header_names.
Proof.
  intros Hsome. destruct (decide (k ∈ search_header_names)) as [|Hk]; [done|].
  exfalso. absent_names Hk.
  cut (WebSearchTool.headers cfg !! k = None).
  { intros Hnone. rewrite Hnone in Hsome. by destruct Hsome. }
  unfold WebSearchTool.headers.
  destruct (SearchCfg.crawl_details _); lookup_chain; [|done].
  repeat case_decide; by lookup_chain.
Qed.

Lemma search_headers_bounded_witness : "X-Engine" ∈ search_header_names.
Proof.
  apply (search_headers_bounded sample_config "X-Engine").
  exists "direct". reflexivity.
Defined.

(** X2: whatever the configuration, an extraction sends no header other
    than the fifteen names of [crawl_header_names]; in particular it never
    sends [X-Respond-With]. *)
Theorem crawl_headers_bounded (cfg : Config.t) (k : string) :
  (is_Some (UrlCrawlTool.headers cfg !! k) → k ∈ crawl_header_names) ∧
  UrlCrawlTool.headers cfg !! "X-Respond-With" = None.
Proof.
  assert (∀ k', k' ∉ crawl_header_names →
                UrlCrawlTool.headers cfg !! k' = None) as Habsent.
  { intros k' Hk. absent_names Hk. unfold UrlCrawlTool.headers.
    lookup_chain. split_engine (Config.extract cfg); by lookup_chain. }
  split.
  - intros Hsome. destruct (decide (k ∈ crawl_header_names)) as [|Hk]; [done|].
    rewrite (Habsent k Hk) in Hsome. by destruct Hsome.
  - apply Habsent. unfold crawl_header_names, detail_headers. simpl.
    rewrite !not_elem_of_cons. repeat split; try discriminate.
    apply not_elem_of_nil.
Qed.

Lemma crawl_headers_bounded_witness :
  "X-Custom-Prehandler-Scripts-List" ∈ crawl_header_names.
Proof.
  apply (crawl_headers_bounded sample_config "X-Custom-Prehandler-Scripts-List").
  exists "a,b". reflexivity.
Defined.

(** X3: a search sends [X-Respond-With: no-content] exactly when
    [crawl_details] is off, and leaves the header out exactly when it is
    on. *)
Theorem respond_with_iff (cfg : Config.t) :
  (SearchCfg.crawl_details (Config.search cfg) = false ↔
   WebSearchTool.headers cfg !! "X-Respond-With" = Some "no-content") ∧
  (SearchCfg.crawl_details (Config.search cfg) = true ↔
   WebSearchTool.headers cfg !! "X-Respond-With" = None).
Proof.
  unfold WebSearchTool.headers.
  destruct (SearchCfg.crawl_details _); lookup_chain.
  - assert (∀ h : gmap string string,
      h !! "X-Respond-With" = None →
      (if decide (SearchCfg.engine_mode (Config.search cfg) = "fast")
       then <["X-Engine" := "direct"]> h
       else if decide (SearchCfg.engine_mode (Config.search cfg) = "quality")
       then <["X-Engine" := "browser"]> h else h) !! "X-Respond-With" = None)
      as Hengine.
    { intros h Hh. repeat case_decide; by lookup_chain. }
    rewrite Hengine by by lookup_chain. naive_solver.
  - naive_solver.
Qed.

(** ** The two tools read separate settings *)

(** X4: a search reads only the [provider] and [search] sections: two
    configurations that agree on them give the same search call, whatever
    their [extract] sections hold; an extraction likewise reads only
    [provider] and [extract]. *)
Theorem sections_independent `{Externals} (cfg cfg' : Config.t)
    (args : list (string * pyval)) (posted : list request) :
  Config.provider cfg = Config.provider cfg' →
  (Config.search cfg = Config.search cfg' →
   WebSearchTool.execute cfg args posted =
     WebSearchTool.execute cfg' args posted) ∧
  (Config.extract cfg = Config.extract cfg' →
   UrlCrawlTool.execute cfg args posted =
     UrlCrawlTool.execute cfg' args posted).
Proof.
  intros Hprovider. split; intros Hsection.
  - rewrite !search_execute_run.
    assert (WebSearchTool.request cfg (dict_get "keywords" args) =
            WebSearchTool.request cfg' (dict_get "keywords" args)) as ->;
      [|done].
    unfold WebSearchTool.request, WebSearchTool.headers, WebSearchTool.body.
    by rewrite Hprovider, Hsection.
  - rewrite !crawl_execute_run.
    assert (UrlCrawlTool.request cfg (dict_get "url" args) =
            UrlCrawlTool.request cfg' (dict_get "url" args)) as ->; [|done].
    unfold UrlCrawlTool.request, UrlCrawlTool.headers.
    by rewrite Hprovider, Hsection.
Qed.

Lemma sections_independent_witness :
  let env := sample_env (failing_service 503) in
  @WebSearchTool.execute env default_config [("keywords", PyStr "rocq")] [] =
  @WebSearchTool.execute env mixed_config [("keywords", PyStr "rocq")] [].
Proof.
  intros env.
  apply (@sections_independent env default_config mixed_config); reflexivity.
Defined.

(** ** Reading the headers back *)

(** X5: a positive [timeout] can be read back from the [X-Timeout] header,
    in a search with [crawl_details] on and in an extraction: parsing the
    header as a decimal number gives the configured value. *)
Theorem timeout_round_trip (cfg : Config.t) :
  (SearchCfg.crawl_details (Config.search cfg) = true →
   SearchCfg.timeout (Config.search cfg) > 0 →
   WebSearchTool.headers cfg !! "X-Timeout" ≫= parse_int =
     Some (SearchCfg.timeout (Config.search cfg))) ∧
  (ExtractCfg.timeout (Config.extract cfg) > 0 →
   UrlCrawlTool.headers cfg !! "X-Timeout" ≫= parse_int =
     Some (ExtractCfg.timeout (Config.extract cfg))).
Proof.
  split.
  - intros Hon Hpos. rewrite search_headers_timeout by done.
    rewrite bool_decide_true by done. simpl. apply str_int_parse.
  - intros Hpos. rewrite crawl_headers_timeout.
    rewrite bool_decide_true by done. simpl. apply str_int_parse.
Qed.

Lemma timeout_round_trip_witness :
  WebSearchTool.headers sample_config !! "X-Timeout" ≫= parse_int = Some 30 ∧
  UrlCrawlTool.headers default_config !! "X-Timeout" ≫= parse_int = Some 10.
Proof.
  destruct (timeout_round_trip sample_config) as [Hsearch _].
  destruct (timeout_round_trip default_config) as [_ Hcrawl].
  split.
  - apply Hsearch; [reflexivity | simpl; lia].
  - apply Hcrawl. simpl. lia.
Defined.

Lemma split_commas_piece (s : string) :
  has_comma s = false → split_commas s = [s].
Proof.
  induction s as [|c s IH]; simpl; [done|].
  intros [Hc Hs]%orb_false_elim. rewrite Hc. by rewrite (IH Hs).
Qed.

Lemma split_commas_app (s rest : string) :
  has_comma s = false →
  split_commas (s +:+ "," +:+ rest) = s :: split_commas rest.
Proof.
  induction s as [|c s IH]; simpl; [done|].
  intros [Hc Hs]%orb_false_elim. rewrite Hc. by rewrite (IH Hs).
Qed.

Lemma split_commas_join (scripts : list string) :
  scripts ≠ [] →
  Forall (λ s, has_comma s = false) scripts →
  split_commas (join "," scripts) = scripts.
Proof.
  intros Hne Hfree. induction Hfree as [|s scripts Hs Hfree IH]; [done|].
  destruct scripts as [|s' scripts].
  - simpl. by apply split_commas_piece.
  - change (join "," (s :: s' :: scripts))
      with (s +:+ "," +:+ join "," (s' :: scripts)).
    rewrite split_commas_app by done. by rewrite IH.
Qed.

(** X6: with [use_custom_prehandler_scripts] on and a non-empty list of
    scripts none of which holds a comma, splitting the
    [X-Custom-Prehandler-Scripts-List] header at its commas gives the
    configured list back. *)
Theorem scripts_round_trip (cfg : Config.t) :
  let e := Config.extract cfg in
  ExtractCfg.use_custom_prehandler_scripts e = true →
  ExtractCfg.custom_prehandler_scripts_list e ≠ [] →
  Forall (λ s, has_comma s = false) (ExtractCfg.custom_prehandler_scripts_list e) →
  split_commas <$> UrlCrawlTool.headers cfg !! "X-Custom-Prehandler-Scripts-List"
    = Some (ExtractCfg.custom_prehandler_scripts_list e).
Proof.
  intros e Hon Hne Hfree. rewrite crawl_headers_scripts_list. fold e.
  rewrite Hon.
  destruct (ExtractCfg.custom_prehandler_scripts_list e) as [|s scripts] eqn:Hl;
    [done|].
  pose proof (split_commas_join (s :: scripts) Hne Hfree) as Hback.
  simpl. f_equal. exact Hback.
Qed.

Lemma scripts_round_trip_witness :
  split_commas <$>
    UrlCrawlTool.headers sample_config !! "X-Custom-Prehandler-Scripts-List"
  = Some ["a"; "b"].
Proof.
  apply (scripts_round_trip sample_config);
    [reflexivity | discriminate | repeat constructor].
Defined.

(** Without the condition on commas the list is not determined by the
    header: a script named ["a,b"] reads back as two. *)
Example scripts_with_comma :
  join "," ["a,b"] = join "," ["a"; "b"] ∧
  split_commas (join "," ["a,b"]) = ["a"; "b"].
Proof. split; reflexivity. Qed.

(** ** What a call does with its arguments *)

(** X7: [execute] hands the value found under ["keywords"] (or ["url"]) to
    the service as it is, whatever its type, as the [q] (or [url]) field of
    the body posted to [https://s.jina.ai/] (or [https://r.jina.ai/]); when
    the key is missing the request is posted all the same, with [None] in
    the field; every other key of [function_args] is ignored. *)
Theorem arguments_forwarded `{Externals} (cfg : Config.t)
    (args : list (string * pyval)) (posted : list request) :
  let kw := dict_get "keywords" args in
  let url := dict_get "url" args in
  ((WebSearchTool.execute cfg args posted).2 =
     posted ++ [mk_request "https://s.jina.ai/" (WebSearchTool.headers cfg)
                  (json_dumps (PyDict (WebSearchTool.body cfg kw)))] ∧
   head (WebSearchTool.body cfg kw) = Some ("q", kw) ∧
   (dict_lookup "keywords" args = None → kw = PyNone) ∧
   ∀ args', dict_get "keywords" args' = kw →
     WebSearchTool.execute cfg args' posted =
       WebSearchTool.execute cfg args posted) ∧
  ((UrlCrawlTool.execute cfg args posted).2 =
     posted ++ [mk_request "https://r.jina.ai/" (UrlCrawlTool.headers cfg)
                  (json_dumps (PyDict [("url", url)]))] ∧
   (dict_lookup "url" args = None → url = PyNone) ∧
   ∀ args', dict_get "url" args' = url →
     UrlCrawlTool.execute cfg args' posted =
       UrlCrawlTool.execute cfg args posted).
Proof.
  intros kw url. split.
  - rewrite search_execute_run. fold kw. split; [done|]. split.
    { unfold WebSearchTool.body. by repeat case_bool_decide. }
    split; [apply dict_get_missing|].
    intros args' Hargs. rewrite !search_execute_run. fold kw.
    by rewrite Hargs.
  - rewrite crawl_execute_run. fold url. split; [done|].
    split; [apply dict_get_missing|].
    intros args' Hargs. rewrite !crawl_execute_run. fold url.
    by rewrite Hargs.
Qed.

Lemma arguments_forwarded_witness :
  let env := sample_env (failing_service 422) in
  @WebSearchTool.execute env default_config
    [("limit", PyInt 5); ("keywords", PyInt 7)] [] =
  @WebSearchTool.execute env default_config [("keywords", PyInt 7)] [] ∧
  dict_get "keywords" [("limit", PyInt 5)] = PyNone.
Proof.
  intros env.
  destruct (@arguments_forwarded env default_config [("keywords", PyInt 7)] [])
    as [[_ [_ [_ Hsame]]] _].
  destruct (@arguments_forwarded env default_config [("limit", PyInt 5)] [])
    as [[_ [_ [Hmissing _]]] _].
  split.
  - apply Hsame. reflexivity.
  - apply Hmissing. reflexivity.
Defined.

(** ** Calls one after the other *)

(** X8: tool calls compose without interfering: a search followed by an
    extraction posts the two requests in that order and gives each the
    result it has on its own, also when the first call failed; the same
    search run twice posts its request twice (nothing is cached). *)
Theorem calls_in_sequence `{Externals} (cfg : Config.t)
    (args1 args2 : list (string * pyval)) (posted : list request) :
  ∃ d1 d2,
    (WebSearchTool.execute cfg args1 []).1 = Return d1 ∧
    (UrlCrawlTool.execute cfg args2 []).1 = Return d2 ∧
    (x ← WebSearchTool.execute cfg args1;
     y ← UrlCrawlTool.execute cfg args2;
     mret (x, y)) posted =
      (Return (d1, d2),
       posted ++ [WebSearchTool.request cfg (dict_get "keywords" args1);
                  UrlCrawlTool.request cfg (dict_get "url" args2)]) ∧
    (x ← WebSearchTool.execute cfg args1;
     y ← WebSearchTool.execute cfg args1;
     mret (x, y)) posted =
      (Return (d1, d1),
       posted ++ [WebSearchTool.request cfg (dict_get "keywords" args1);
                  WebSearchTool.request cfg (dict_get "keywords" args1)]).
Proof.
  unfold mbind, mret, io_bind, io_ret.
  do 2 (rewrite ?search_execute_run, ?crawl_execute_run; cbv zeta; simpl).
  rewrite <- !(assoc_L (++)). simpl.
  eexists _, _. repeat split; reflexivity.
Qed.

(** ** The registered tools *)

(** X9: [get_plugin_components] registers two tools with different names,
    each described by [get_tool_info] of its own class and offered to the
    model. Each declares a single parameter, a required string, and
    [execute] reads [function_args] through that parameter only; every call
    posts one request and returns a result under the registered name. *)
Theorem registered_tools `{PluginSystem} `{Externals}
    (get_tool_info : BaseTool.t → ComponentInfo) :
  let components := WebCrawlPlugin.get_plugin_components get_tool_info in
  NoDup ((λ c, BaseTool.name c.2) <$> components) ∧
  ∀ info tool, (info, tool) ∈ components →
    info = get_tool_info tool ∧
    BaseTool.available_for_llm tool = true ∧
    (∃ p text,
       BaseTool.parameters tool = [(p, STRING, text, true, None)] ∧
       ∀ cfg args args' posted,
         dict_get p args = dict_get p args' →
         BaseTool.execute tool cfg args posted =
           BaseTool.execute tool cfg args' posted) ∧
    ∀ cfg args posted, ∃ content r,
      BaseTool.execute tool cfg args posted =
        (Return (PyDict [("name", PyStr (BaseTool.name tool));
                         ("content", PyStr content)]),
         posted ++ [r]).
Proof.
  intros components. split.
  - simpl. apply NoDup_cons. split; [|apply NoDup_singleton].
    rewrite list_elem_of_singleton. discriminate.
  - intros info tool Hin. unfold components in Hin.
    unfold WebCrawlPlugin.get_plugin_components in Hin.
    apply elem_of_cons in Hin as [[= -> ->]|Hin];
      [|apply list_elem_of_singleton in Hin as [= -> ->]];
      (split; [done|]); (split; [done|]); simpl; split.
    + eexists _, _. split; [reflexivity|].
      intros cfg args args' posted Hargs.
      rewrite !search_execute_run. cbv zeta. by rewrite Hargs.
    + intros cfg args posted. rewrite search_execute_run.
      eexists _, _. reflexivity.
    + eexists _, _. split; [reflexivity|].
      intros cfg args args' posted Hargs.
      rewrite !crawl_execute_run. cbv zeta. by rewrite Hargs.
    + intros cfg args posted. rewrite crawl_execute_run.
      eexists _, _. reflexivity.
Qed.

Lemma registered_tools_witness :
  let env := sample_env unreachable_service in
  ∃ content r,
    @WebSearchTool.execute env default_config [] [] =
      (Return (PyDict [("name", PyStr "search_web");
                       ("content", PyStr content)]),
       [] ++ [r]).
Proof.
  intros env.
  destruct (@registered_tools sample_host env BaseTool.name) as [_ Htools].
  destruct (Htools "search_web" (@WebSearchTool_class sample_host env))
    as [_ [_ [_ Hcall]]].
  - apply elem_of_cons. by left.
  - apply (Hcall default_config [] []).
Defined.

(** ** What the host cannot tell apart *)

(** X10: the result carries no mark of failure besides its text: a call
    whose POST raised an exception with message [msg] returns exactly what a
    call returns whose POST was answered 200 with the text
    ["搜索失败: " + msg] (["内容提取失败: " + msg] for an extraction). *)
Theorem failure_is_only_text (ok down : Externals) (cfg : Config.t)
    (args : list (string * pyval)) (posted : list request) (msg : string) :
  (@post ok (@WebSearchTool.request ok cfg (dict_get "keywords" args)) =
     Responds (mk_response 200 ("搜索失败: " +:+ msg)) →
   @post down (@WebSearchTool.request down cfg (dict_get "keywords" args)) =
     Fails (Exception msg) →
   (@WebSearchTool.execute ok cfg args posted).1 =
     (@WebSearchTool.execute down cfg args posted).1) ∧
  (@post ok (@UrlCrawlTool.request ok cfg (dict_get "url" args)) =
     Responds (mk_response 200 ("内容提取失败: " +:+ msg)) →
   @post down (@UrlCrawlTool.request down cfg (dict_get "url" args)) =
     Fails (Exception msg) →
   (@UrlCrawlTool.execute ok cfg args posted).1 =
     (@UrlCrawlTool.execute down cfg args posted).1).
Proof.
  split; intros Hok Hdown.
  - rewrite !search_execute_run. cbv zeta. by rewrite Hok, Hdown.
  - rewrite !crawl_execute_run. cbv zeta. by rewrite Hok, Hdown.
Qed.

Lemma failure_is_only_text_witness :
  let page := "搜索失败: Cannot connect to host https://s.jina.ai/" in
  (@WebSearchTool.execute (sample_env (keyed_service "jina_test" page))
     sample_config [("keywords", PyStr "rocq")] []).1 =
  (@WebSearchTool.execute (sample_env unreachable_service)
     sample_config [("keywords", PyStr "rocq")] []).1.
Proof.
  intros page.
  destruct (failure_is_only_text
              (sample_env (keyed_service "jina_test" page))
              (sample_env unreachable_service)
              sample_config [("keywords", PyStr "rocq")] []
              "Cannot connect to host https://s.jina.ai/") as [Hsearch _].
  apply Hsearch; reflexivity.
Defined.
